(** * Attack technique reports: status resolution and message composition

    A shallow embedding of
    [monkey_island/cc/services/attack/technique_reports/__init__.py]
    (class [AttackTechnique]) and the properties of its status resolver,
    explanation composer and report entry builder. *)

From Stdlib Require Import ZArith List Ascii String.
From stdpp Require Import base option gmap strings list fin_maps.

Local Open Scope Z_scope.
Local Open Scope string_scope.

(** ** Python string helpers *)

Module PyStr.

(** [s.lstrip(c)] for a one-character set. *)
Fixpoint lstrip (c : ascii) (s : string) : string :=
  match s with
  | EmptyString => EmptyString
  | String a s' => if Ascii.eqb a c then lstrip c s' else s
  end.

(** [s.rstrip(c)] for a one-character set. *)
Fixpoint rstrip (c : ascii) (s : string) : string :=
  match s with
  | EmptyString => EmptyString
  | String a s' =>
      match rstrip c s' with
      | EmptyString => if Ascii.eqb a c then EmptyString else String a EmptyString
      | r => String a r
      end
  end.

(** [s.strip(c)]: the characters of the set are removed at both ends. *)
Definition strip (c : ascii) (s : string) : string := rstrip c (lstrip c s).

(** [sep.join(l)]. *)
Fixpoint join (sep : string) (l : list string) : string :=
  match l with
  | [] => EmptyString
  | [x] => x
  | x :: l' => x +:+ sep +:+ join sep l'
  end.

(** [s.startswith(c)] for one character. *)
Definition startswith (c : ascii) (s : string) : bool :=
  match s with
  | String a _ => Ascii.eqb a c
  | EmptyString => false
  end.

End PyStr.

(** ** Data model *)

(** [common.utils.attack_utils.ScanStatus]: the enumeration is imported by
    the module; only the [.value] of its four members is used, as an
    integer.  The numeric values are a parameter of the development. *)
Class ScanStatus := {
  UNSCANNED : Z;
  SCANNED : Z;
  USED : Z;
  DISABLED : Z
}.

(** An insertion-ordered Python dict with string keys, where the order of
    iteration matters. *)
Definition odict (V : Type) : Type := list (string * V).

Fixpoint odict_get {V} (k : string) (d : odict V) : option V :=
  match d with
  | [] => None
  | (k', v) :: d' => if String.eqb k' k then Some v else odict_get k d'
  end.

Definition odict_keys {V} (d : odict V) : list string := map fst d.

(** The value of [config_schema_per_attack_technique]: technique id to
    (config type to the names of the fields that are disabled or empty). *)
Abbreviation GateIndex := (gmap string (odict (list string))).

(** [ConfigSchemaPerAttackTechnique().get_config_schema_per_attack_technique]
    and the [SCHEMA] it is applied to are imported by the module; the
    reverse map is a parameter of the development. *)
Class ConfigSchemaPerAttackTechnique := {
  Schema : Type;
  get_config_schema_per_attack_technique : Schema → GateIndex
}.

(** A document of [mongo.db.telemetry], with the fields the queries read. *)
Record Telemetry := {
  telem_category : string;
  data_status : Z;
  data_technique : string
}.

(** The filter passed to [find_one]: the three keys are always given. *)
Record Query := {
  q_telem_category : string;
  q_data_status : Z;
  q_data_technique : string
}.

Definition matches (q : Query) (d : Telemetry) : bool :=
  String.eqb (telem_category d) (q_telem_category q)
  && Z.eqb (data_status d) (q_data_status q)
  && String.eqb (data_technique d) (q_data_technique q).

(** The concrete subclass: the five abstract properties. *)
Record AttackTechnique := {
  unscanned_msg : string;
  scanned_msg : string;
  used_msg : string;
  tech_id : string;
  relevant_systems : list string
}.

(** Values stored in the report entry dict. *)
Inductive Value :=
| VInt (z : Z)
| VStr (s : string)
| VMitigations (l : list string).

Abbreviation Dict := (gmap string Value).

(** Python exceptions raised on the paths of this module. *)
Inductive Error :=
| KeyError (key : string)
| TypeError
| UnknownTechnique (id : string)
| MitigationMissing (id : string).

Inductive Result (A : Type) :=
| Ok (a : A)
| Raise (e : Error).
Arguments Ok {A} a.
Arguments Raise {A} e.

(** The collaborators the module reads, as they stand during one call. *)
Record World `{ConfigSchemaPerAttackTechnique} := {
  (** [AttackConfig.get_technique_values()] *)
  technique_values : gmap string bool;
  (** the documents of [mongo.db.telemetry], in natural order *)
  telemetry : list Telemetry;
  (** Modelled from the spec: [AttackConfig.get_technique] is not part of
      the module; the Technique Catalog maps an identifier to its title and
      a missing entry fails with [UnknownTechnique]. *)
  technique_titles : gmap string string;
  (** Modelled from the spec: [AttackMitigations] is not part of the module;
      the Mitigation Catalog maps an identifier to its mitigation texts and
      a missing record fails with [MitigationMissing]. *)
  mitigation_catalog : gmap string (list string);
  (** [config_schema.SCHEMA] *)
  SCHEMA : Schema
}.

(** What the module mutates: the class attribute
    [config_schema_per_attack_technique] of the technique class ([None] until
    first assigned through [cls]), and the queries sent to the telemetry
    collection, oldest first. *)
Record State := {
  config_schema_per_attack_technique : option GateIndex;
  queries : list Query
}.

Definition init_state : State :=
  {| config_schema_per_attack_technique := None; queries := [] |}.

(** ** State and exception monad *)

Definition M (A : Type) : Type := State → Result A * State.

Definition ret {A} (a : A) : M A := λ s, (Ok a, s).

Definition raise {A} (e : Error) : M A := λ s, (Raise e, s).

Definition bind {A B} (c : M A) (k : A → M B) : M B :=
  λ s, match c s with
       | (Ok a, s') => k a s'
       | (Raise e, s') => (Raise e, s')
       end.

Notation "'do' x <- c ;; k" := (bind c (λ x, k))
  (at level 10, x name, c at level 99, k at level 200,
   format "'[v' 'do'  x  <-  c  ;; '/' k ']'").
Notation "'run' c ;; k" := (bind c (λ _, k))
  (at level 10, c at level 99, k at level 200,
   format "'[v' 'run'  c  ;; '/' k ']'").

Definition get_cache : M (option GateIndex) :=
  λ s, (Ok (config_schema_per_attack_technique s), s).

Definition set_cache (d : GateIndex) : M unit :=
  λ s, (Ok tt, {| config_schema_per_attack_technique := Some d;
                  queries := queries s |}).

(** Truth value of the class attribute: [None] and the empty dict are false. *)
Definition truthy (o : option GateIndex) : bool :=
  match o with
  | None => false
  | Some d => negb (bool_decide (d = ∅))
  end.

(** ** The module *)

Definition disabled_msg : string :=
  "This technique has been disabled. "
  +:+ "You can enable it from the [configuration page](../../configure).".

(** The line feed character. *)
Definition newline : string := String "010" EmptyString.

(** U+2014 (em dash) in UTF-8. *)
Definition em_dash : string :=
  String (ascii_of_nat 226) (String (ascii_of_nat 128)
    (String (ascii_of_nat 148) EmptyString)).

Section AttackTechnique.

Context `{ScanStatus} `{ConfigSchemaPerAttackTechnique}.
Variable w : World.
Variable cls : AttackTechnique.

(** [mongo.db.telemetry.find_one(filter)]: the first matching document,
    or [None]; the query is recorded. *)
Definition find_one (q : Query) : M (option Telemetry) :=
  λ s, (Ok (List.find (matches q) (telemetry w)),
        {| config_schema_per_attack_technique :=
             config_schema_per_attack_technique s;
           queries := (queries s ++ [q])%list |}).

Definition _is_enabled_in_config : M bool :=
  match technique_values w !! tech_id cls with
  | Some b => ret b
  | None => raise (KeyError (tech_id cls))
  end.

Definition technique_status : M Z :=
  do enabled <- _is_enabled_in_config ;;
  if negb enabled then ret DISABLED
  else
    do used <- find_one (Build_Query "attack" USED (tech_id cls)) ;;
    if bool_decide (is_Some used) then ret USED
    else
      do scanned <- find_one (Build_Query "attack" SCANNED (tech_id cls)) ;;
      if bool_decide (is_Some scanned) then ret SCANNED
      else ret UNSCANNED.

(** One round of the loop of [_get_relevant_config_values]. *)
Definition config_option_line (entry : odict (list string))
    (config_options : string) (config_type : string) : M string :=
  match odict_get config_type entry with
  | Some fields =>
      ret (config_options +:+ "- " +:+ config_type +:+ " " +:+ em_dash
           +:+ " " +:+ PyStr.join ", " fields +:+ "<br/>")
  | None => raise (KeyError config_type)
  end.

Fixpoint for_config_types (entry : odict (list string))
    (config_types : list string) (config_options : string) : M string :=
  match config_types with
  | [] => ret config_options
  | config_type :: rest =>
      do config_options <- config_option_line entry config_options config_type ;;
      for_config_types entry rest config_options
  end.

Definition _get_relevant_config_values
    (config_schema_per_attack_technique : GateIndex) : M string :=
  match config_schema_per_attack_technique !! tech_id cls with
  | Some entry => for_config_types entry (odict_keys entry) EmptyString
  | None => raise (KeyError (tech_id cls))
  end.

Definition _get_unscanned_msg_with_reasons (unscanned_msg : string)
    (config_schema_per_attack_technique : GateIndex) : M string :=
  let reasons : list string := [] in
  let reasons :=
    match relevant_systems cls with
    | [system] =>
        (reasons ++ ["- Monkey did not run on any " +:+ system +:+ " systems."])%list
    | _ => reasons
    end in
  do reasons <-
    (if bool_decide (is_Some (config_schema_per_attack_technique !! tech_id cls))
     then
       do values <- _get_relevant_config_values config_schema_per_attack_technique ;;
       ret (reasons ++
            ["- The following configuration options were disabled or empty:<br/>"
             +:+ values])%list
     else ret reasons) ;;
  match reasons with
  | [] => ret unscanned_msg
  | _ =>
      ret (PyStr.strip "." unscanned_msg
           +:+ " due to one of the following reasons:" +:+ newline
           +:+ PyStr.join newline reasons)
  end.

Definition get_message_by_status (status : Z) : M string :=
  if Z.eqb status DISABLED then ret disabled_msg
  else if Z.eqb status UNSCANNED then
    do cached <- get_cache ;;
    run (if negb (truthy cached)
         then set_cache (get_config_schema_per_attack_technique (SCHEMA w))
         else ret tt) ;;
    do cached <- get_cache ;;
    match cached with
    | Some index => _get_unscanned_msg_with_reasons (unscanned_msg cls) index
    | None => raise TypeError
    end
  else if Z.eqb status SCANNED then ret (scanned_msg cls)
  else ret (used_msg cls).

Definition get_message_and_status (status : Z) : M Dict :=
  do message <- get_message_by_status status ;;
  ret ({[ "message" := VStr message; "status" := VInt status ]} : Dict).

Definition technique_title : M string :=
  match technique_titles w !! tech_id cls with
  | Some title => ret title
  | None => raise (UnknownTechnique (tech_id cls))
  end.

Definition get_mitigation_by_status (status : Z) : M Dict :=
  if Z.eqb status USED then
    match mitigation_catalog w !! tech_id cls with
    | Some mitigations => ret ({[ "mitigations" := VMitigations mitigations ]} : Dict)
    | None => raise (MitigationMissing (tech_id cls))
    end
  else ret (∅ : Dict).

(** [data.update(other)]: the keys of [other] win. *)
Definition update (data other : Dict) : Dict := other ∪ data.

Definition get_tech_base_data : M Dict :=
  let data : Dict := ∅ in
  do status <- technique_status ;;
  do title <- technique_title ;;
  do message <- get_message_by_status status ;;
  let data := update data {[ "status" := VInt status; "title" := VStr title;
                             "message" := VStr message ]} in
  do mitigation <- get_mitigation_by_status status ;;
  let data := update data mitigation in
  ret data.

Definition get_base_data_by_status (status : Z) : M Dict :=
  do data <- get_message_and_status status ;;
  do title <- technique_title ;;
  let data := update data {[ "title" := VStr title ]} in
  do mitigation <- get_mitigation_by_status status ;;
  let data := update data mitigation in
  ret data.

(** The decorator [is_status_disabled]: the wrapped function returns a
    status and the technique's data. *)
Definition is_status_disabled {D} (get_technique_status_and_data : M (Z * list D))
    : M (Z * list D) :=
  do enabled <- _is_enabled_in_config ;;
  if negb enabled then ret (DISABLED, [])
  else get_technique_status_and_data.

End AttackTechnique.

(** ** Reference descriptions of the composed message

    These follow the wording of the design notes and are compared with the
    functions above. *)

(** The text of one config type, as one round of the loop writes it. *)
Definition config_type_line (config_type : string) (fields : list string)
    : string :=
  "- " +:+ config_type +:+ " " +:+ em_dash +:+ " "
  +:+ PyStr.join ", " fields +:+ "<br/>".

(** The lines of all config types of a gate entry, in stored order. *)
Fixpoint config_type_lines (entry : odict (list string)) : string :=
  match entry with
  | [] => EmptyString
  | (config_type, fields) :: rest =>
      config_type_line config_type fields +:+ config_type_lines rest
  end.

(** The reason line on the operating system: present when the technique is
    relevant to exactly one system. *)
Definition os_reason (cls : AttackTechnique) : list string :=
  match relevant_systems cls with
  | [system] => ["- Monkey did not run on any " +:+ system +:+ " systems."]
  | _ => []
  end.

(** What the loop accumulates over the keys [config_types] of [entry]. *)
Fixpoint config_options_from (entry : odict (list string))
    (config_types : list string) (config_options : string) : string :=
  match config_types with
  | [] => config_options
  | config_type :: rest =>
      config_options_from entry rest
        (config_options
         +:+ "- " +:+ config_type +:+ " " +:+ em_dash +:+ " "
         +:+ PyStr.join ", " (default [] (odict_get config_type entry))
         +:+ "<br/>")
  end.

(** The reason line on the configuration: present when the technique is a
    key of the gate index. *)
Definition config_reason (cls : AttackTechnique) (index : GateIndex)
    : list string :=
  match index !! tech_id cls with
  | Some entry =>
      ["- The following configuration options were disabled or empty:<br/>"
       +:+ config_options_from entry (odict_keys entry) EmptyString]
  | None => []
  end.

(** The reason lines, in the order in which they are appended. *)
Definition reason_lines (cls : AttackTechnique) (index : GateIndex)
    : list string :=
  (os_reason cls ++ config_reason cls index)%list.

(** The message composed from a base message and its reason lines. *)
Definition with_reasons (strip : string → string) (base : string)
    (reasons : list string) : string :=
  match reasons with
  | [] => base
  | _ => strip base +:+ " due to one of the following reasons:" +:+ newline
         +:+ PyStr.join newline reasons
  end.

(** The gate index a call of [get_message_by_status] composes from: the
    cached one when it is set and not empty, else the one of the schema. *)
Definition index_in_use `{ConfigSchemaPerAttackTechnique} (w : World)
    (s : State) : GateIndex :=
  if truthy (config_schema_per_attack_technique s)
  then default ∅ (config_schema_per_attack_technique s)
  else get_config_schema_per_attack_technique (SCHEMA w).

(** The class attribute after [get_message_by_status]. *)
Definition cache_after `{ScanStatus} `{ConfigSchemaPerAttackTechnique}
    (w : World) (status : Z) (s : State) : option GateIndex :=
  if negb (Z.eqb status DISABLED) && Z.eqb status UNSCANNED
     && negb (truthy (config_schema_per_attack_technique s))
  then Some (get_config_schema_per_attack_technique (SCHEMA w))
  else config_schema_per_attack_technique s.

(** The message [get_message_by_status] picks in state [s]. *)
Definition message_for `{ScanStatus} `{ConfigSchemaPerAttackTechnique}
    (w : World) (cls : AttackTechnique) (status : Z) (s : State) : string :=
  if Z.eqb status DISABLED then disabled_msg
  else if Z.eqb status UNSCANNED then
    with_reasons (PyStr.strip ".") (unscanned_msg cls)
      (reason_lines cls (index_in_use w s))
  else if Z.eqb status SCANNED then scanned_msg cls
  else used_msg cls.

(** The entry satisfies the rule on mitigations: the key is present exactly
    for the used status, and then holds the texts of the catalog. *)
Definition mitigations_rule `{ScanStatus} `{ConfigSchemaPerAttackTechnique}
    (w : World) (cls : AttackTechnique) (status : Z) (data : Dict) : Prop :=
  (is_Some (data !! "mitigations") ↔ status = USED) ∧
  (status = USED →
   ∃ texts, mitigation_catalog w !! tech_id cls = Some texts ∧
            data !! "mitigations" = Some (VMitigations texts)).

(** ** Concrete parameters used by the examples *)

(** The numbering of the docstring of [get_tech_base_data]
    (['status': 2] next to the used message). *)
Definition numbered_ScanStatus : ScanStatus :=
  {| UNSCANNED := 0; SCANNED := 1; USED := 2; DISABLED := 3 |}.

(** A schema that is already stored in reversed form. *)
Definition reversed_schema : ConfigSchemaPerAttackTechnique :=
  {| Schema := GateIndex; get_config_schema_per_attack_technique := λ d, d |}.

Definition T1110 : AttackTechnique :=
  {| unscanned_msg := "Monkey didn't try to brute force any services.";
     scanned_msg := "Monkey tried to brute force some services, but failed.";
     used_msg := "Monkey successfully used brute force in the network.";
     tech_id := "T1110";
     relevant_systems := ["Linux"; "Windows"] |}.

Definition T1154 : AttackTechnique :=
  {| unscanned_msg := "Monkey didn't use the trap command.";
     scanned_msg := "Monkey tried using the trap command but failed.";
     used_msg := "Monkey used the trap command successfully.";
     tech_id := "T1154";
     relevant_systems := ["Linux"] |}.

(** A technique class whose identifier the configuration does not list. *)
Definition T1053 : AttackTechnique :=
  {| unscanned_msg := "Monkey didn't try scheduling a job.";
     scanned_msg := "Monkey tried scheduling a job but failed.";
     used_msg := "Monkey scheduled a job.";
     tech_id := "T1053";
     relevant_systems := ["Linux"; "Windows"] |}.

Definition used_T1110 : Telemetry :=
  {| telem_category := "attack"; data_status := 2; data_technique := "T1110" |}.

Definition scanned_T1110 : Telemetry :=
  {| telem_category := "attack"; data_status := 1; data_technique := "T1110" |}.

Definition used_T1154 : Telemetry :=
  {| telem_category := "attack"; data_status := 2; data_technique := "T1154" |}.

Definition brute_force_index : GateIndex :=
  {[ "T1154" := [("Brute force", ["threads_count"])];
     "T1110" := [("Brute force", ["threads_count"])] ]}.

Definition exploit_index : GateIndex :=
  {[ "T1154" := [("Exploits", ["exploiter_classes"; "depth"]);
                 ("Network", ["tcp_scanner"])];
     "T1110" := [("Exploits", ["exploiter_classes"])] ]}.

Definition sample_world (index : GateIndex) (log : list Telemetry)
    : @World reversed_schema :=
  @Build_World reversed_schema
    {[ "T1110" := true; "T1154" := false ]}
    log
    {[ "T1110" := "T1110 Brute force"; "T1154" := "T1154 Trap" ]}
    {[ "T1110" := ["Account Use Policies"];
       "T1154" := ["User Account Management"] ]}
    index.

(** A field of the entry a call returned, if it returned one. *)
Definition entry_field (k : string) (r : Result Dict * State) : option Value :=
  match r.1 with
  | Ok data => data !! k
  | Raise _ => None
  end.

(** ** Further reference definitions *)

(** The log holds an attack telemetry of the technique at [status]. *)
Definition has_event `{ConfigSchemaPerAttackTechnique} (w : World)
    (cls : AttackTechnique) (status : Z) : Prop :=
  ∃ d, In d (telemetry w) ∧ telem_category d = "attack" ∧
       data_status d = status ∧ data_technique d = tech_id cls.

(** The filter of [technique_status] for one status. *)
Definition status_query (cls : AttackTechnique) (status : Z) : Query :=
  Build_Query "attack" status (tech_id cls).

(** Whether [find_one] finds a document for the filter of [status]. *)
Definition has_eventb `{ConfigSchemaPerAttackTechnique} (w : World)
    (cls : AttackTechnique) (status : Z) : bool :=
  existsb (matches (status_query cls status)) (telemetry w).

(** The state after more queries were sent. *)
Definition sent (s : State) (qs : list Query) : State :=
  {| config_schema_per_attack_technique := config_schema_per_attack_technique s;
     queries := (queries s ++ qs)%list |}.

(** A run of [n] periods. *)
Fixpoint periods (n : nat) : string :=
  match n with
  | O => EmptyString
  | S n' => String "." (periods n')
  end.

(** The last character of [s] is [c]. *)
Fixpoint last_is (c : ascii) (s : string) : bool :=
  match s with
  | EmptyString => false
  | String a EmptyString => Ascii.eqb a c
  | String _ s' => last_is c s'
  end.

(** What [get_mitigation_by_status] contributes to an entry when the
    catalog holds [texts] for the technique. *)
Definition mitigation_part `{ScanStatus} (status : Z) (texts : list string)
    : Dict :=
  if Z.eqb status USED then {[ "mitigations" := VMitigations texts ]} else ∅.

(** The report entry, as a dict. *)
Definition report_entry `{ScanStatus} (status : Z) (title message : string)
    (texts : list string) : Dict :=
  mitigation_part status texts
  ∪ {[ "status" := VInt status; "title" := VStr title;
       "message" := VStr message ]}.

(** The state [get_message_by_status] leaves. *)
Definition after_message `{ScanStatus} `{ConfigSchemaPerAttackTechnique}
    (w : World) (status : Z) (s : State) : State :=
  {| config_schema_per_attack_technique := cache_after w status s;
     queries := queries s |}.

(** The class attribute is unset or holds the index of the schema of [w]. *)
Definition cache_consistent `{ConfigSchemaPerAttackTechnique} (w : World)
    (s : State) : Prop :=
  config_schema_per_attack_technique s = None ∨
  config_schema_per_attack_technique s =
    Some (get_config_schema_per_attack_technique (SCHEMA w)).

(** The state with the class attribute unset. *)
Definition reset_cache (s : State) : State :=
  {| config_schema_per_attack_technique := None; queries := queries s |}.

(** A used-level telemetry of [T1110] in another category. *)
Definition scan_T1110 : Telemetry :=
  {| telem_category := "scan"; data_status := 2; data_technique := "T1110" |}.

(** A state whose class attribute already holds [brute_force_index]. *)
Definition cached_state : State :=
  {| config_schema_per_attack_technique := Some brute_force_index;
     queries := [] |}.

(** ** Status resolution *)

Section Resolver.

Context `{ScanStatus} `{ConfigSchemaPerAttackTechnique}.
Variable w : World.
Variable cls : AttackTechnique.

Lemma find_one_spec q s :
  find_one w q s =
    (Ok (List.find (matches q) (telemetry w)),
     {| config_schema_per_attack_technique :=
          config_schema_per_attack_technique s;
        queries := (queries s ++ [q])%list |}).
Proof. reflexivity. Qed.

Lemma matches_true q d :
  matches q d = true ↔
  telem_category d = q_telem_category q ∧
  data_status d = q_data_status q ∧
  data_technique d = q_data_technique q.
Proof.
  unfold matches. rewrite !andb_true_iff, !String.eqb_eq, Z.eqb_eq. tauto.
Qed.

(** A document that satisfies the filter makes [find_one] return one. *)
Lemma find_some_of_match q d (log : list Telemetry) :
  In d log → matches q d = true → is_Some (List.find (matches q) log).
Proof.
  induction log as [|d' log IH]; simpl; [tauto|].
  intros [->|Hin] Hm.
  - rewrite Hm. eauto.
  - destruct (matches q d'); eauto.
Qed.

(** C1. A technique whose enabled flag in the configuration is false
    resolves to the disabled status whatever the telemetry holds, and the
    state is returned as it was: no query reaches the telemetry
    collection. *)
Theorem technique_status_disabled (s : State) :
  technique_values w !! tech_id cls = Some false →
  technique_status w cls s = (Ok DISABLED, s).
Proof.
  intros Hcfg. unfold technique_status, _is_enabled_in_config, bind.
  rewrite Hcfg. reflexivity.
Qed.

(** C2. An enabled technique with a used-level attack telemetry in the
    log resolves to the used status, whatever else the log holds; a
    single query was sent. *)
Theorem technique_status_used (s : State) (d : Telemetry) :
  technique_values w !! tech_id cls = Some true →
  In d (telemetry w) →
  telem_category d = "attack" →
  data_status d = USED →
  data_technique d = tech_id cls →
  technique_status w cls s =
    (Ok USED,
     {| config_schema_per_attack_technique :=
          config_schema_per_attack_technique s;
        queries := (queries s ++ [Build_Query "attack" USED (tech_id cls)])%list |}).
Proof.
  intros Hcfg Hin Hcat Hst Htech.
  unfold technique_status, _is_enabled_in_config, bind.
  rewrite Hcfg. cbn [ret negb]. rewrite find_one_spec.
  rewrite bool_decide_eq_true_2; [reflexivity|].
  apply (find_some_of_match _ d); [assumption|].
  apply matches_true. cbn. auto.
Qed.

(** C10. A technique whose identifier is not a key of the technique
    values raises the key error of the enabled check; the state is returned
    as it was, so no query was sent. *)
Theorem technique_status_key_error (s : State) :
  technique_values w !! tech_id cls = None →
  technique_status w cls s = (Raise (KeyError (tech_id cls)), s).
Proof.
  intros Hcfg. unfold technique_status, _is_enabled_in_config, bind.
  rewrite Hcfg. reflexivity.
Qed.

(** C9. Every status value other than those of disabled, unscanned and
    scanned, in or out of the enumeration, selects the used message. *)
Theorem get_message_by_status_fallthrough (status : Z) (s : State) :
  status ≠ DISABLED → status ≠ UNSCANNED → status ≠ SCANNED →
  get_message_by_status w cls status s = (Ok (used_msg cls), s).
Proof.
  intros Hd Hu Hs. unfold get_message_by_status.
  apply Z.eqb_neq in Hd, Hu, Hs. rewrite Hd, Hu, Hs. reflexivity.
Qed.

End Resolver.

(** ** Message composition *)

Section Composer.

Context `{ScanStatus} `{ConfigSchemaPerAttackTechnique}.
Variable w : World.
Variable cls : AttackTechnique.

Lemma odict_get_key {V} (k : string) (d : odict V) :
  In k (odict_keys d) → is_Some (odict_get k d).
Proof.
  induction d as [|[k' v] d IH]; simpl; [tauto|].
  intros [->|Hin].
  - rewrite String.eqb_refl. eauto.
  - destruct (String.eqb k' k); eauto.
Qed.

(** The loop over the config types never raises when the keys come from
    the entry, and accumulates [config_options_from]. *)
Lemma for_config_types_ok entry config_types acc s :
  (∀ k, In k config_types → In k (odict_keys entry)) →
  for_config_types entry config_types acc s =
    (Ok (config_options_from entry config_types acc), s).
Proof.
  revert acc. induction config_types as [|k rest IH]; intros acc Hsub.
  - reflexivity.
  - cbn [for_config_types config_options_from]. unfold bind, config_option_line.
    destruct (odict_get_key k entry) as [fields Hget]; [apply Hsub; now left|].
    rewrite Hget. cbn [ret default from_option id]. apply IH.
    intros k' Hin. apply Hsub. now right.
Qed.

Lemma get_relevant_config_values_ok index entry s :
  index !! tech_id cls = Some entry →
  _get_relevant_config_values cls index s =
    (Ok (config_options_from entry (odict_keys entry) EmptyString), s).
Proof.
  intros Hidx. unfold _get_relevant_config_values. rewrite Hidx.
  now apply for_config_types_ok.
Qed.

(** [_get_unscanned_msg_with_reasons] never raises, leaves the state as
    it was and returns the base message with its reason lines. *)
Lemma get_unscanned_msg_with_reasons_ok base index s :
  _get_unscanned_msg_with_reasons cls base index s =
    (Ok (with_reasons (PyStr.strip ".") base (reason_lines cls index)), s).
Proof.
  unfold _get_unscanned_msg_with_reasons, reason_lines, os_reason,
    config_reason, bind.
  destruct (index !! tech_id cls) as [entry|] eqn:Hidx.
  - rewrite bool_decide_eq_true_2 by eauto.
    rewrite (get_relevant_config_values_ok _ entry) by assumption.
    destruct (relevant_systems cls) as [|system [|? ?]]; reflexivity.
  - rewrite bool_decide_eq_false_2 by (intros [? ?]; discriminate).
    destruct (relevant_systems cls) as [|system [|? ?]]; reflexivity.
Qed.

Lemma strip_no_leading c base :
  PyStr.startswith c base = false → PyStr.strip c base = PyStr.rstrip c base.
Proof.
  unfold PyStr.strip. destruct base as [|a base]; [reflexivity|].
  cbn [PyStr.startswith PyStr.lstrip]. now intros ->.
Qed.

Lemma truthy_Some index :
  truthy (Some index) = true → index ≠ ∅.
Proof.
  cbn [truthy]. intros Ht ->. now rewrite bool_decide_eq_true_2 in Ht.
Qed.

(** The index that a call composes from is the one it leaves in the class
    attribute, and a second call composes from the same one. *)
Lemma index_in_use_stable s q :
  index_in_use w {| config_schema_per_attack_technique :=
                      Some (index_in_use w s);
                    queries := q |} = index_in_use w s.
Proof.
  unfold index_in_use at 1. cbn [config_schema_per_attack_technique truthy default].
  case_bool_decide as Hempty; cbn [negb]; [|reflexivity].
  unfold index_in_use in *.
  destruct (truthy (config_schema_per_attack_technique s)) eqn:Ht; [|reflexivity].
  destruct (config_schema_per_attack_technique s) as [index|]; [|discriminate].
  cbn [default from_option id] in Hempty. now apply truthy_Some in Ht.
Qed.

(** [get_message_by_status] never raises; its message and the state it
    leaves. *)
Lemma get_message_by_status_ok status s :
  get_message_by_status w cls status s =
    (Ok (message_for w cls status s),
     {| config_schema_per_attack_technique := cache_after w status s;
        queries := queries s |}).
Proof.
  unfold get_message_by_status, message_for, cache_after.
  destruct s as [cached q]. cbn [config_schema_per_attack_technique queries].
  destruct (Z.eqb status DISABLED); [reflexivity|].
  destruct (Z.eqb status UNSCANNED); cbn [negb andb].
  - unfold bind, get_cache, set_cache, index_in_use.
    cbn [config_schema_per_attack_technique queries].
    destruct (truthy cached) eqn:Ht; cbn [negb ret].
    + destruct cached as [index|]; [|discriminate].
      cbn [config_schema_per_attack_technique default from_option id].
      apply get_unscanned_msg_with_reasons_ok.
    + apply get_unscanned_msg_with_reasons_ok.
  - destruct (Z.eqb status SCANNED); reflexivity.
Qed.

(** In the branch of the unscanned status the class attribute is left
    holding the index the message was composed from. *)
Lemma cache_after_unscanned status s :
  Z.eqb status DISABLED = false → Z.eqb status UNSCANNED = true →
  cache_after w status s = Some (index_in_use w s).
Proof.
  intros Hd Hu. unfold cache_after, index_in_use. rewrite Hd, Hu. cbn [negb andb].
  destruct (truthy (config_schema_per_attack_technique s)) eqn:Ht;
    cbn [negb]; [|reflexivity].
  destruct (config_schema_per_attack_technique s); [reflexivity|discriminate].
Qed.

Lemma cache_after_other status s :
  Z.eqb status DISABLED = true ∨ Z.eqb status UNSCANNED = false →
  cache_after w status s = config_schema_per_attack_technique s.
Proof.
  unfold cache_after. intros [->| ->]; [reflexivity|].
  now rewrite andb_false_r.
Qed.

(** C3 (amended). For a base message that does not begin with a period:
    when at least one reason line is produced the composed message is the
    base message without its trailing periods, then
    [" due to one of the following reasons:"], a line feed, and the reason
    lines joined by line feeds; when none is produced it is the base
    message verbatim.  The call never raises and leaves the state as it
    was. *)
Theorem unscanned_msg_with_reasons_composed base index s :
  PyStr.startswith "." base = false →
  _get_unscanned_msg_with_reasons cls base index s =
    (Ok (match reason_lines cls index with
         | [] => base
         | _ :: _ =>
             PyStr.rstrip "." base
             +:+ " due to one of the following reasons:" +:+ newline
             +:+ PyStr.join newline (reason_lines cls index)
         end), s).
Proof.
  intros Hstart. rewrite get_unscanned_msg_with_reasons_ok.
  unfold with_reasons. rewrite (strip_no_leading _ _ Hstart).
  destruct (reason_lines cls index); reflexivity.
Qed.

(** C8. Two calls of [get_message_by_status] in a row with the same
    technique, status and schema return the same message, whatever the
    class attribute held before the first call; the second call leaves the
    state as the first one left it. *)
Theorem get_message_by_status_idempotent status s :
  ∃ msg s1,
    get_message_by_status w cls status s = (Ok msg, s1) ∧
    get_message_by_status w cls status s1 = (Ok msg, s1).
Proof.
  eexists _, _. split; [apply get_message_by_status_ok|].
  rewrite get_message_by_status_ok. cbn [queries].
  destruct (Z.eqb status DISABLED) eqn:Hd.
  - unfold message_for. rewrite Hd.
    rewrite !cache_after_other by (left; assumption). reflexivity.
  - destruct (Z.eqb status UNSCANNED) eqn:Hu.
    + rewrite !cache_after_unscanned by assumption.
      unfold message_for. rewrite Hd, Hu.
      rewrite index_in_use_stable. reflexivity.
    + unfold message_for. rewrite Hd, Hu.
      rewrite !cache_after_other by (right; assumption). reflexivity.
Qed.

(** X17. [get_message_by_status] assigns the class attribute, from the
    schema, only when it composes the message of the unscanned status while
    the attribute is unset or empty; in every other case the attribute is
    left as it was.  The message is composed from the index the attribute
    holds when that is set and not empty. *)
Theorem gate_index_cache_filled_lazily status s :
  config_schema_per_attack_technique
    (snd (get_message_by_status w cls status s)) =
    (if negb (Z.eqb status DISABLED) && Z.eqb status UNSCANNED
        && negb (truthy (config_schema_per_attack_technique s))
     then Some (get_config_schema_per_attack_technique (SCHEMA w))
     else config_schema_per_attack_technique s)
  ∧ fst (get_message_by_status w cls status s) =
      Ok (message_for w cls status s).
Proof.
  rewrite get_message_by_status_ok. split; reflexivity.
Qed.

End Composer.

(** ** Report entries *)

Section Builder.

Context `{ScanStatus} `{ConfigSchemaPerAttackTechnique}.
Variable w : World.
Variable cls : AttackTechnique.

Lemma technique_title_ok title s :
  technique_titles w !! tech_id cls = Some title →
  technique_title w cls s = (Ok title, s).
Proof. intros Ht. unfold technique_title. now rewrite Ht. Qed.

Lemma get_mitigation_by_status_used texts s :
  mitigation_catalog w !! tech_id cls = Some texts →
  get_mitigation_by_status w cls USED s =
    (Ok {[ "mitigations" := VMitigations texts ]}, s).
Proof.
  intros Hm. unfold get_mitigation_by_status. now rewrite Z.eqb_refl, Hm.
Qed.

Lemma get_mitigation_by_status_other status s :
  status ≠ USED → get_mitigation_by_status w cls status s = (Ok ∅, s).
Proof.
  intros Hne. unfold get_mitigation_by_status.
  apply Z.eqb_neq in Hne. now rewrite Hne.
Qed.

(** The mitigations looked up for [status] obey the rule once merged into
    an entry that has no such key yet. *)
Lemma update_mitigations_rule status (data : Dict) s :
  data !! "mitigations" = None →
  (status = USED → is_Some (mitigation_catalog w !! tech_id cls)) →
  ∃ mitigation,
    get_mitigation_by_status w cls status s = (Ok mitigation, s) ∧
    mitigations_rule w cls status (update data mitigation) ∧
    ∀ k, k ≠ "mitigations" → update data mitigation !! k = data !! k.
Proof.
  intros Hfresh Hcat. destruct (decide (status = USED)) as [->|Hne].
  - destruct Hcat as [texts Htexts]; [reflexivity|].
    exists {[ "mitigations" := VMitigations texts ]}.
    split; [now apply get_mitigation_by_status_used|].
    unfold mitigations_rule, update. split; [split|].
    + rewrite lookup_union, lookup_singleton_eq, Hfresh. split; eauto.
    + intros _. exists texts. split; [assumption|].
      now rewrite lookup_union, lookup_singleton_eq, Hfresh.
    + intros k Hk. rewrite lookup_union, lookup_singleton_ne by congruence.
      now destruct (data !! k).
  - exists ∅. split; [now apply get_mitigation_by_status_other|].
    unfold mitigations_rule, update. rewrite (left_id_L ∅ (∪)).
    split; [split|]; [|tauto|reflexivity].
    rewrite Hfresh. split; [intros [? ?]; discriminate|tauto].
Qed.

Local Ltac lookup_key :=
  unfold update;
  repeat first
    [ rewrite lookup_union
    | rewrite lookup_insert_eq
    | rewrite lookup_singleton_eq
    | rewrite lookup_insert_ne by (intro; discriminate)
    | rewrite lookup_singleton_ne by (intro; discriminate)
    | rewrite lookup_empty ];
  try reflexivity.

(** [get_base_data_by_status] returns whenever the title exists and, for
    the used status, the mitigations exist; the entry it returns. *)
Lemma get_base_data_by_status_ok status title s :
  technique_titles w !! tech_id cls = Some title →
  (status = USED → is_Some (mitigation_catalog w !! tech_id cls)) →
  ∃ data,
    get_base_data_by_status w cls status s =
      (Ok data, {| config_schema_per_attack_technique := cache_after w status s;
                   queries := queries s |}) ∧
    data !! "status" = Some (VInt status) ∧
    data !! "title" = Some (VStr title) ∧
    data !! "message" = Some (VStr (message_for w cls status s)) ∧
    mitigations_rule w cls status data.
Proof.
  intros Htitle Hcat.
  unfold get_base_data_by_status, get_message_and_status, bind.
  rewrite get_message_by_status_ok. cbn [ret].
  rewrite (technique_title_ok title) by assumption.
  match goal with
  | |- context [get_mitigation_by_status w cls status ?s1] =>
      match goal with
      | |- context [update ?d _] =>
          destruct (update_mitigations_rule status d s1)
            as (mitigation & Hget & Hrule & Hkeep);
            [lookup_key | assumption |]
      end
  end.
  rewrite Hget. eexists. split; [reflexivity|].
  rewrite !Hkeep by (intro; discriminate).
  repeat split; try apply Hrule; lookup_key.
Qed.


Lemma is_status_disabled_not_enabled {D} (f : M (Z * list D)) s :
  technique_values w !! tech_id cls = Some false →
  is_status_disabled w cls f s = (Ok (DISABLED, []), s).
Proof.
  intros Hcfg. unfold is_status_disabled, _is_enabled_in_config, bind.
  now rewrite Hcfg.
Qed.

Lemma is_status_disabled_enabled {D} (f : M (Z * list D)) s :
  technique_values w !! tech_id cls = Some true →
  is_status_disabled w cls f s = f s.
Proof.
  intros Hcfg. unfold is_status_disabled, _is_enabled_in_config, bind.
  now rewrite Hcfg.
Qed.

(** C5 (amended). Whatever the enabled flag of the technique,
    [get_base_data_by_status] returns an entry whose status is the status
    the caller supplied (it returns whenever the title exists and, for
    the used status, the mitigations exist).  The disabled short-circuit
    is the separate wrapper [is_status_disabled]: for a technique that is
    not enabled it returns the disabled status with no data and does not
    run the wrapped function; for an enabled one it runs it. *)
Theorem base_data_by_status_keeps_status status title (enabled : bool) s :
  technique_values w !! tech_id cls = Some enabled →
  technique_titles w !! tech_id cls = Some title →
  (status = USED → is_Some (mitigation_catalog w !! tech_id cls)) →
  (∃ data s',
     get_base_data_by_status w cls status s = (Ok data, s') ∧
     data !! "status" = Some (VInt status) ∧
     data !! "title" = Some (VStr title) ∧
     data !! "message" = Some (VStr (message_for w cls status s))) ∧
  (∀ D (f : M (Z * list D)),
     is_status_disabled w cls f s =
       if enabled then f s else (Ok (DISABLED, @nil D), s)).
Proof.
  intros Hcfg Htitle Hcat. split.
  - destruct (get_base_data_by_status_ok status title s Htitle Hcat)
      as (data & Hrun & Hst & Hti & Hmsg & _).
    eauto 10.
  - intros D f. destruct enabled.
    + now apply is_status_disabled_enabled.
    + now apply is_status_disabled_not_enabled.
Qed.


End Builder.

(** ** The config lines follow the stored order *)

Section StoredOrder.

Lemma append_cons (x : ascii) (a b : string) :
  String x a +:+ b = String x (a +:+ b).
Proof. reflexivity. Qed.

Lemma append_nil_r (a : string) : a +:+ EmptyString = a.
Proof.
  induction a as [|x a IH]; [reflexivity|]. now rewrite append_cons, IH.
Qed.

Lemma append_assoc (a b c : string) : (a +:+ b) +:+ c = a +:+ (b +:+ c).
Proof.
  induction a as [|x a IH]; [reflexivity|]. now rewrite !append_cons, IH.
Qed.

Lemma config_options_from_acc entry config_types acc :
  config_options_from entry config_types acc =
  acc +:+ config_options_from entry config_types EmptyString.
Proof.
  revert acc. induction config_types as [|k rest IH]; intros acc;
    cbn [config_options_from].
  - now rewrite append_nil_r.
  - rewrite IH. rewrite (IH (EmptyString +:+ _)). now rewrite append_assoc.
Qed.

Lemma odict_get_NoDup {V} (entry : odict V) k v :
  List.NoDup (odict_keys entry) → In (k, v) entry → odict_get k entry = Some v.
Proof.
  induction entry as [|[k' v'] entry IH]; cbn; [tauto|].
  intros Hnd [Heq|Hin]; apply List.NoDup_cons_iff in Hnd as [Hfresh Hnd].
  - injection Heq as -> ->. now rewrite String.eqb_refl.
  - destruct (String.eqb k' k) eqn:Hk; [|now apply IH].
    apply String.eqb_eq in Hk as ->. exfalso. apply Hfresh.
    apply in_map_iff. now exists (k, v).
Qed.

Lemma config_options_from_lookup entry0 entry :
  (∀ k v, In (k, v) entry → odict_get k entry0 = Some v) →
  config_options_from entry0 (odict_keys entry) EmptyString =
  config_type_lines entry.
Proof.
  induction entry as [|[k v] entry IH]; intros Hget; [reflexivity|].
  cbn [odict_keys map fst config_options_from config_type_lines].
  rewrite (Hget k v) by now left. cbn [default from_option id].
  rewrite config_options_from_acc. fold (odict_keys entry).
  rewrite IH by (intros k' v' Hin; apply Hget; now right).
  reflexivity.
Qed.

(** X7. With the keys of a dict being distinct, the text that
    [_get_relevant_config_values] returns is one line per config type,
    with its fields, in the order in which the entry stores them. *)
Lemma get_relevant_config_values_stored_order cls index entry s :
  List.NoDup (odict_keys entry) →
  index !! tech_id cls = Some entry →
  _get_relevant_config_values cls index s = (Ok (config_type_lines entry), s).
Proof.
  intros Hnd Hidx. rewrite (get_relevant_config_values_ok _ _ entry) by assumption.
  rewrite config_options_from_lookup; [reflexivity|].
  intros k v. now apply odict_get_NoDup.
Qed.

(** C6. For a technique relevant to exactly one system whose identifier
    is a key of the gate index, the composed message ends with the two
    reason lines, the one on the system first and the one on the
    configuration options second.  The second line lists, after its
    heading, what the loop over the config types of the entry writes; the
    keys of a dict being distinct, that is one ["- type (em dash) fields"]
    text per config type of the entry, each with the names of its disabled
    or empty fields joined by [", "], in stored order. *)
Theorem unscanned_msg_single_system_in_index cls base index system entry s :
  relevant_systems cls = [system] →
  index !! tech_id cls = Some entry →
  _get_unscanned_msg_with_reasons cls base index s =
    (Ok (PyStr.strip "." base
         +:+ " due to one of the following reasons:" +:+ newline
         +:+ ("- Monkey did not run on any " +:+ system +:+ " systems.")
         +:+ newline
         +:+ ("- The following configuration options were disabled or empty:<br/>"
              +:+ config_options_from entry (odict_keys entry) EmptyString)),
     s) ∧
  (List.NoDup (odict_keys entry) →
   config_options_from entry (odict_keys entry) EmptyString =
   config_type_lines entry).
Proof.
  intros Hsys Hidx. split.
  - rewrite get_unscanned_msg_with_reasons_ok.
    unfold reason_lines, os_reason, config_reason. rewrite Hsys, Hidx.
    reflexivity.
  - intros Hnd. apply config_options_from_lookup.
    intros k v. now apply odict_get_NoDup.
Qed.

End StoredOrder.

(** ** Worked instances *)

Section Examples.

Local Existing Instance numbered_ScanStatus.
Local Existing Instance reversed_schema.

Example strip_trailing :
  PyStr.strip "." "Monkey didn't run." = "Monkey didn't run".
Proof. reflexivity. Qed.

Example strip_both_ends : PyStr.strip "." "..a.b..." = "a.b".
Proof. reflexivity. Qed.

Example join_fields : PyStr.join ", " ["a"; "b"; "c"] = "a, b, c".
Proof. reflexivity. Qed.

(** Disabled [T1154], with a used-level telemetry of its own in the log. *)
Lemma technique_status_disabled_witness :
  technique_values (sample_world ∅ [used_T1154]) !! tech_id T1154 = Some false ∧
  technique_status (sample_world ∅ [used_T1154]) T1154 init_state =
    (Ok DISABLED, init_state).
Proof.
  split; [vm_compute; reflexivity|].
  apply technique_status_disabled. vm_compute; reflexivity.
Defined.

(** Enabled [T1110], with a scanned-level telemetry ahead of the used-level
    one in the log. *)
Lemma technique_status_used_witness :
  technique_values (sample_world ∅ [scanned_T1110; used_T1110]) !! tech_id T1110
    = Some true ∧
  technique_status (sample_world ∅ [scanned_T1110; used_T1110]) T1110 init_state =
    (Ok USED,
     {| config_schema_per_attack_technique := None;
        queries := [Build_Query "attack" USED "T1110"] |}).
Proof.
  split; [vm_compute; reflexivity|].
  apply (technique_status_used
           (sample_world ∅ [scanned_T1110; used_T1110]) T1110 init_state
           used_T1110).
  - vm_compute; reflexivity.
  - right; left; reflexivity.
  - reflexivity.
  - reflexivity.
  - reflexivity.
Defined.

(** [T1053] is not a key of the technique values. *)
Lemma technique_status_key_error_witness :
  technique_values (sample_world ∅ [used_T1110]) !! tech_id T1053 = None ∧
  technique_status (sample_world ∅ [used_T1110]) T1053 init_state =
    (Raise (KeyError "T1053"), init_state).
Proof.
  split; [vm_compute; reflexivity|].
  apply technique_status_key_error. vm_compute; reflexivity.
Defined.

(** A status outside the enumeration. *)
Lemma get_message_by_status_fallthrough_witness :
  get_message_by_status (sample_world ∅ []) T1110 7 init_state =
    (Ok "Monkey successfully used brute force in the network.", init_state).
Proof.
  apply (get_message_by_status_fallthrough (sample_world ∅ []) T1110 7 init_state);
    intro; discriminate.
Defined.

(** One reason line, on the system. *)
Lemma unscanned_msg_with_reasons_composed_witness :
  PyStr.startswith "." (unscanned_msg T1154) = false ∧
  _get_unscanned_msg_with_reasons T1154 (unscanned_msg T1154) ∅ init_state =
    (Ok ("Monkey didn't use the trap command"
         +:+ " due to one of the following reasons:" +:+ newline
         +:+ "- Monkey did not run on any Linux systems."), init_state).
Proof.
  split; [reflexivity|].
  etrans.
  - apply (unscanned_msg_with_reasons_composed T1154 (unscanned_msg T1154) ∅
             init_state).
    reflexivity.
  - vm_compute. reflexivity.
Defined.

(** No reason line: the base message is returned verbatim. *)
Example unscanned_msg_verbatim :
  _get_unscanned_msg_with_reasons T1110 (unscanned_msg T1110) ∅ init_state =
    (Ok "Monkey didn't try to brute force any services.", init_state).
Proof.
  rewrite get_unscanned_msg_with_reasons_ok. reflexivity.
Qed.

(** The technique of one system with ["threads_count"] disabled under
    ["Brute force"]. *)
Lemma unscanned_msg_single_system_in_index_witness :
  _get_unscanned_msg_with_reasons T1154 (unscanned_msg T1154)
    brute_force_index init_state =
    (Ok ("Monkey didn't use the trap command"
         +:+ " due to one of the following reasons:" +:+ newline
         +:+ "- Monkey did not run on any Linux systems."
         +:+ newline
         +:+ "- The following configuration options were disabled or empty:<br/>"
         +:+ "- Brute force " +:+ em_dash +:+ " threads_count<br/>"),
     init_state).
Proof.
  destruct (unscanned_msg_single_system_in_index T1154 (unscanned_msg T1154)
              brute_force_index "Linux" [("Brute force", ["threads_count"])]
              init_state)
    as [Hmsg Hlines].
  - reflexivity.
  - vm_compute. reflexivity.
  - rewrite Hmsg, Hlines.
    + vm_compute. reflexivity.
    + repeat constructor. cbn. tauto.
Defined.

Example unscanned_msg_threads_count :
  (_get_unscanned_msg_with_reasons T1154 (unscanned_msg T1154)
     brute_force_index init_state).1 =
    Ok ("Monkey didn't use the trap command due to one of the following reasons:"
        +:+ newline
        +:+ "- Monkey did not run on any Linux systems."
        +:+ newline
        +:+ "- The following configuration options were disabled or empty:<br/>"
        +:+ "- Brute force " +:+ em_dash +:+ " threads_count<br/>").
Proof. vm_compute. reflexivity. Qed.

(** C3 as stated fails: the text that follows the stripped base message
    begins with a space, not with a colon. *)
Lemma unscanned_msg_colon_counterexample :
  reason_lines T1154 ∅ ≠ [] ∧
  ¬ ∃ rest,
      (_get_unscanned_msg_with_reasons T1154 (unscanned_msg T1154) ∅
         init_state).1 =
      Ok (PyStr.rstrip "." (unscanned_msg T1154)
          +:+ ": due to one of the following reasons:" +:+ rest).
Proof.
  split; [vm_compute; discriminate|].
  intros [rest Hrest]. vm_compute in Hrest. discriminate Hrest.
Qed.

(** The disabled [T1154] asked for with the used status. *)
Lemma base_data_by_status_keeps_status_witness :
  technique_values (sample_world ∅ []) !! tech_id T1154 = Some false ∧
  (∃ data s',
     get_base_data_by_status (sample_world ∅ []) T1154 USED init_state =
       (Ok data, s') ∧
     data !! "status" = Some (VInt USED) ∧
     data !! "title" = Some (VStr "T1154 Trap") ∧
     data !! "message" =
       Some (VStr (message_for (sample_world ∅ []) T1154 USED init_state))) ∧
  (∀ D (f : M (Z * list D)),
     is_status_disabled (sample_world ∅ []) T1154 f init_state =
       (Ok (DISABLED, []), init_state)).
Proof.
  split; [vm_compute; reflexivity|].
  apply (base_data_by_status_keeps_status (sample_world ∅ []) T1154 USED
           "T1154 Trap" false init_state).
  - vm_compute; reflexivity.
  - vm_compute; reflexivity.
  - intros _. eexists. vm_compute. reflexivity.
Defined.

(** C5 as stated fails: for the disabled [T1154] the entry carries the
    used status the caller passed, with mitigations, not the disabled
    one. *)
Lemma base_data_by_status_disabled_counterexample :
  technique_values (sample_world ∅ []) !! tech_id T1154 = Some false ∧
  entry_field "status"
    (get_base_data_by_status (sample_world ∅ []) T1154 USED init_state)
    = Some (VInt USED) ∧
  entry_field "status"
    (get_base_data_by_status (sample_world ∅ []) T1154 USED init_state)
    ≠ Some (VInt DISABLED) ∧
  entry_field "mitigations"
    (get_base_data_by_status (sample_world ∅ []) T1154 USED init_state)
    = Some (VMitigations ["User Account Management"]).
Proof.
  repeat split; try (vm_compute; reflexivity).
  vm_compute. discriminate.
Qed.


Example tech_base_data_used :
  entry_field "status"
    (get_tech_base_data (sample_world ∅ [used_T1110]) T1110 init_state)
    = Some (VInt USED) ∧
  entry_field "mitigations"
    (get_tech_base_data (sample_world ∅ [used_T1110]) T1110 init_state)
    = Some (VMitigations ["Account Use Policies"]).
Proof. split; vm_compute; reflexivity. Qed.

Example tech_base_data_disabled :
  entry_field "status"
    (get_tech_base_data (sample_world ∅ [used_T1154]) T1154 init_state)
    = Some (VInt DISABLED) ∧
  entry_field "message"
    (get_tech_base_data (sample_world ∅ [used_T1154]) T1154 init_state)
    = Some (VStr disabled_msg) ∧
  entry_field "mitigations"
    (get_tech_base_data (sample_world ∅ [used_T1154]) T1154 init_state)
    = None.
Proof. repeat split; vm_compute; reflexivity. Qed.

End Examples.


(** ** Further properties of the status resolution *)

Section ResolverMore.

Context `{ScanStatus} `{ConfigSchemaPerAttackTechnique}.

Lemma find_is_Some q (log : list Telemetry) :
  is_Some (List.find (matches q) log) ↔ ∃ d, In d log ∧ matches q d = true.
Proof.
  split.
  - intros [d Hd]. exists d. now apply List.find_some in Hd.
  - intros (d & Hin & Hm). now apply (find_some_of_match q d).
Qed.

Lemma has_event_find (w : World) cls status :
  has_event w cls status ↔
  is_Some (List.find (matches (status_query cls status)) (telemetry w)).
Proof.
  rewrite find_is_Some. unfold has_event.
  split; intros (d & Hin & Hd); exists d; (split; [assumption|]).
  - apply matches_true. cbn. tauto.
  - apply matches_true in Hd. cbn in Hd. tauto.
Qed.

Lemma has_eventb_true (w : World) cls status :
  has_eventb w cls status = true ↔ has_event w cls status.
Proof.
  unfold has_eventb. rewrite existsb_exists, has_event_find, find_is_Some.
  reflexivity.
Qed.

Lemma has_eventb_false (w : World) cls status :
  has_eventb w cls status = false ↔ ¬ has_event w cls status.
Proof.
  rewrite <- has_eventb_true. destruct (has_eventb w cls status).
  - split; [discriminate | intros Hn; now destruct Hn].
  - split; [intros _; discriminate | reflexivity].
Qed.

Lemma has_eventb_find (w : World) cls status :
  bool_decide
    (is_Some (List.find (matches (status_query cls status)) (telemetry w)))
  = has_eventb w cls status.
Proof.
  destruct (has_eventb w cls status) eqn:Hb.
  - apply bool_decide_eq_true_2, has_event_find, has_eventb_true, Hb.
  - apply bool_decide_eq_false_2. rewrite <- has_event_find.
    now apply has_eventb_false.
Qed.

Lemma sent_sent s qs qs' : sent (sent s qs) qs' = sent s (qs ++ qs').
Proof. unfold sent. cbn. now rewrite <- app_assoc. Qed.

(** The status an enabled technique resolves to, and the queries sent on
    the way. *)
Lemma technique_status_enabled (w : World) cls s :
  technique_values w !! tech_id cls = Some true →
  technique_status w cls s =
    if has_eventb w cls USED
    then (Ok USED, sent s [status_query cls USED])
    else if has_eventb w cls SCANNED
    then (Ok SCANNED, sent s [status_query cls USED; status_query cls SCANNED])
    else (Ok UNSCANNED, sent s [status_query cls USED; status_query cls SCANNED]).
Proof.
  intros Hcfg. unfold technique_status, _is_enabled_in_config, bind.
  rewrite Hcfg. cbn [ret negb]. rewrite find_one_spec.
  fold (status_query cls USED). fold (sent s [status_query cls USED]).
  rewrite has_eventb_find.
  destruct (has_eventb w cls USED); [reflexivity|].
  rewrite find_one_spec.
  fold (status_query cls SCANNED).
  fold (sent (sent s [status_query cls USED]) [status_query cls SCANNED]).
  rewrite sent_sent. cbn [app].
  rewrite has_eventb_find.
  destruct (has_eventb w cls SCANNED); reflexivity.
Qed.

Lemma technique_status_flag_false (w : World) cls s :
  technique_values w !! tech_id cls = Some false →
  technique_status w cls s = (Ok DISABLED, s).
Proof.
  intros Hcfg. unfold technique_status, _is_enabled_in_config, bind.
  now rewrite Hcfg.
Qed.

Lemma technique_status_no_key (w : World) cls s :
  technique_values w !! tech_id cls = None →
  technique_status w cls s = (Raise (KeyError (tech_id cls)), s).
Proof.
  intros Hcfg. unfold technique_status, _is_enabled_in_config, bind.
  now rewrite Hcfg.
Qed.

Lemma sent_nil s : sent s [] = s.
Proof. destruct s. unfold sent. cbn. now rewrite app_nil_r. Qed.

Lemma has_eventb_subset (w w' : World) cls status :
  (∀ d, In d (telemetry w) → In d (telemetry w')) →
  has_eventb w cls status = true → has_eventb w' cls status = true.
Proof.
  intros Hsub. unfold has_eventb. rewrite !existsb_exists.
  intros (d & Hin & Hm). exists d. auto.
Qed.

Lemma has_eventb_same (w w' : World) cls status :
  (∀ d, In d (telemetry w) ↔ In d (telemetry w')) →
  has_eventb w cls status = has_eventb w' cls status.
Proof.
  intros Hsame.
  destruct (has_eventb w cls status) eqn:Hw, (has_eventb w' cls status) eqn:Hw';
    try reflexivity.
  - apply (has_eventb_subset w w') in Hw; [congruence | apply Hsame].
  - apply (has_eventb_subset w' w) in Hw'; [congruence | apply Hsame].
Qed.

(** X1. An enabled technique with no used-level attack telemetry and at
    least one scanned-level one resolves to the scanned status, after the
    used-level and the scanned-level queries, in that order. *)
Theorem technique_status_scanned (w : World) cls s :
  technique_values w !! tech_id cls = Some true →
  ¬ has_event w cls USED →
  has_event w cls SCANNED →
  technique_status w cls s =
    (Ok SCANNED, sent s [status_query cls USED; status_query cls SCANNED]).
Proof.
  intros Hcfg Hused Hscanned. rewrite technique_status_enabled by assumption.
  apply has_eventb_false in Hused. apply has_eventb_true in Hscanned.
  now rewrite Hused, Hscanned.
Qed.

(** X2. An enabled technique with neither a used-level nor a scanned-level
    attack telemetry resolves to the unscanned status, after both queries;
    telemetry of another category, technique or status does not count. *)
Theorem technique_status_unscanned (w : World) cls s :
  technique_values w !! tech_id cls = Some true →
  ¬ has_event w cls USED →
  ¬ has_event w cls SCANNED →
  technique_status w cls s =
    (Ok UNSCANNED, sent s [status_query cls USED; status_query cls SCANNED]).
Proof.
  intros Hcfg Hused Hscanned. rewrite technique_status_enabled by assumption.
  apply has_eventb_false in Hused, Hscanned.
  now rewrite Hused, Hscanned.
Qed.

(** X3. Only the existence of telemetry matters: two logs with the same
    documents, in any order and any number of copies, give the same status,
    the same error and the same queries. *)
Theorem technique_status_same_documents (w w' : World) cls s :
  technique_values w = technique_values w' →
  (∀ d, In d (telemetry w) ↔ In d (telemetry w')) →
  technique_status w cls s = technique_status w' cls s.
Proof.
  intros Hcfg Hsame.
  destruct (technique_values w !! tech_id cls) as [[|]|] eqn:Hen.
  - rewrite !technique_status_enabled by (rewrite <- ?Hcfg; assumption).
    now rewrite !(has_eventb_same w w') by assumption.
  - rewrite !technique_status_flag_false by (rewrite <- ?Hcfg; assumption).
    reflexivity.
  - rewrite !technique_status_no_key by (rewrite <- ?Hcfg; assumption).
    reflexivity.
Qed.

(** X4. The resolved status does not regress when telemetry is added:
    with the used and unscanned values different, a technique resolved to
    used stays used, and one resolved to scanned becomes scanned or used. *)
Theorem technique_status_monotone (w w' : World) cls s :
  technique_values w = technique_values w' →
  (∀ d, In d (telemetry w) → In d (telemetry w')) →
  USED ≠ UNSCANNED →
  ((technique_status w cls s).1 = Ok USED →
   (technique_status w' cls s).1 = Ok USED) ∧
  ((technique_status w cls s).1 = Ok SCANNED →
   (technique_status w' cls s).1 = Ok SCANNED ∨
   (technique_status w' cls s).1 = Ok USED).
Proof.
  intros Hcfg Hsub Hne.
  destruct (technique_values w !! tech_id cls) as [[|]|] eqn:Hen.
  - rewrite !technique_status_enabled by (rewrite <- ?Hcfg; assumption).
    destruct (has_eventb w cls USED) eqn:Hu.
    + rewrite (has_eventb_subset w w' _ _ Hsub Hu). cbn. auto.
    + destruct (has_eventb w cls SCANNED) eqn:Hs.
      * rewrite (has_eventb_subset w w' _ _ Hsub Hs).
        destruct (has_eventb w' cls USED); cbn; auto.
      * destruct (has_eventb w' cls USED), (has_eventb w' cls SCANNED); cbn;
          split; auto; intros [= Heq]; congruence.
  - rewrite !technique_status_flag_false by (rewrite <- ?Hcfg; assumption).
    cbn. auto.
  - rewrite !technique_status_no_key by (rewrite <- ?Hcfg; assumption).
    cbn. split; discriminate.
Qed.

(** X5. Whatever it returns or raises, [technique_status] leaves the class
    attribute alone and sends no query, the used-level query alone, or the
    used-level query followed by the scanned-level one. *)
Theorem technique_status_queries (w : World) cls s :
  ∃ qs, (technique_status w cls s).2 = sent s qs ∧
        (qs = [] ∨ qs = [status_query cls USED] ∨
         qs = [status_query cls USED; status_query cls SCANNED]).
Proof.
  destruct (technique_values w !! tech_id cls) as [[|]|] eqn:Hen.
  - rewrite technique_status_enabled by assumption.
    destruct (has_eventb w cls USED); [eauto|].
    destruct (has_eventb w cls SCANNED); eauto.
  - rewrite technique_status_flag_false by assumption.
    exists []. rewrite sent_nil. auto.
  - rewrite technique_status_no_key by assumption.
    exists []. rewrite sent_nil. auto.
Qed.

End ResolverMore.


(** ** Further properties of the message composition *)

Section ComposerMore.

Lemma period_eqb (a : ascii) : Ascii.eqb a "." = true → a = "."%char.
Proof. apply Ascii.eqb_eq. Qed.

Lemma lstrip_periods (base : string) :
  ∃ n, base = periods n +:+ PyStr.lstrip "." base ∧
       PyStr.startswith "." (PyStr.lstrip "." base) = false.
Proof.
  induction base as [|a base (n & Heq & Hstart)].
  - exists O. split; reflexivity.
  - cbn [PyStr.lstrip]. destruct (Ascii.eqb a ".") eqn:Ha.
    + apply period_eqb in Ha as ->. exists (S n). split; [|assumption].
      cbn [periods]. rewrite append_cons. now f_equal.
    + exists O. split; [reflexivity|]. cbn [PyStr.startswith]. assumption.
Qed.

Lemma rstrip_periods (base : string) :
  ∃ m, base = PyStr.rstrip "." base +:+ periods m ∧
       last_is "." (PyStr.rstrip "." base) = false.
Proof.
  induction base as [|a base (m & Heq & Hlast)].
  - exists O. split; reflexivity.
  - cbn [PyStr.rstrip]. destruct (PyStr.rstrip "." base) as [|b r] eqn:Hr.
    + destruct (Ascii.eqb a ".") eqn:Ha.
      * apply period_eqb in Ha as ->. exists (S m). split; [|reflexivity].
        rewrite Heq at 1. reflexivity.
      * exists m. split; [|cbn [last_is]; assumption].
        rewrite Heq at 1. reflexivity.
    + exists m. split.
      * rewrite Heq at 1. now rewrite append_cons.
      * cbn [last_is]. cbn [last_is] in Hlast. assumption.
Qed.

Lemma rstrip_keeps_start (base : string) :
  PyStr.startswith "." base = false →
  PyStr.startswith "." (PyStr.rstrip "." base) = false.
Proof.
  destruct base as [|a base]; [reflexivity|].
  cbn [PyStr.startswith PyStr.rstrip]. intros Ha.
  destruct (PyStr.rstrip "." base); [rewrite Ha|]; cbn [PyStr.startswith];
    assumption.
Qed.

(** X6. When a reason line is produced, the part of the composed message
    before [" due to one of the following reasons:"] is the base message
    without the periods at its two ends: the base message is some periods,
    that part, and some periods, and that part neither begins nor ends with
    a period.  Periods inside the base message are kept. *)
Theorem unscanned_msg_periods_removed cls base index s :
  reason_lines cls index ≠ [] →
  ∃ head n m,
    base = periods n +:+ head +:+ periods m ∧
    PyStr.startswith "." head = false ∧
    last_is "." head = false ∧
    _get_unscanned_msg_with_reasons cls base index s =
      (Ok (head +:+ " due to one of the following reasons:" +:+ newline
           +:+ PyStr.join newline (reason_lines cls index)), s).
Proof.
  intros Hreasons.
  destruct (lstrip_periods base) as (n & Hl & Hstart).
  destruct (rstrip_periods (PyStr.lstrip "." base)) as (m & Hr & Hlast).
  exists (PyStr.strip "." base), n, m. unfold PyStr.strip. repeat split.
  - rewrite <- Hr. exact Hl.
  - now apply rstrip_keeps_start.
  - assumption.
  - rewrite get_unscanned_msg_with_reasons_ok. unfold with_reasons, PyStr.strip.
    destruct (reason_lines cls index); [congruence | reflexivity].
Qed.

End ComposerMore.

(** ** Further properties of the report entries *)

Section BuilderMore.

Context `{ScanStatus} `{ConfigSchemaPerAttackTechnique}.

Local Ltac by_key :=
  apply map_eq; intros k; unfold mitigation_part;
  repeat first
    [ rewrite lookup_union | rewrite lookup_insert | rewrite lookup_singleton
    | rewrite lookup_empty ];
  repeat case_decide; subst; try discriminate; try reflexivity.

Lemma entry_two_steps (status : Z) (title message : string) :
  update {[ "message" := VStr message; "status" := VInt status ]}
         {[ "title" := VStr title ]}
  = ({[ "status" := VInt status; "title" := VStr title;
        "message" := VStr message ]} : Dict).
Proof. unfold update. by_key. Qed.

Lemma entry_one_step (d : Dict) : update ∅ d = d.
Proof. unfold update. apply (right_id_L ∅ (∪)). Qed.

Lemma mitigation_of_status (w : World) cls status texts s :
  (status = USED → mitigation_catalog w !! tech_id cls = Some texts) →
  get_mitigation_by_status w cls status s = (Ok (mitigation_part status texts), s).
Proof.
  intros Hcat. unfold get_mitigation_by_status, mitigation_part.
  destruct (Z.eqb status USED) eqn:Hs; [|reflexivity].
  apply Z.eqb_eq in Hs. now rewrite (Hcat Hs).
Qed.

Lemma after_message_cache (w : World) status s :
  truthy (config_schema_per_attack_technique s) = true →
  config_schema_per_attack_technique (after_message w status s) =
  config_schema_per_attack_technique s.
Proof.
  intros Ht. unfold after_message, cache_after. cbn. rewrite Ht.
  now rewrite andb_false_r.
Qed.

Lemma after_message_disabled (w : World) s : after_message w DISABLED s = s.
Proof.
  unfold after_message, cache_after. rewrite Z.eqb_refl. now destruct s.
Qed.

(** The entry and the state [get_base_data_by_status] returns. *)
Lemma get_base_data_by_status_entry (w : World) cls status title texts s :
  technique_titles w !! tech_id cls = Some title →
  (status = USED → mitigation_catalog w !! tech_id cls = Some texts) →
  get_base_data_by_status w cls status s =
    (Ok (report_entry status title (message_for w cls status s) texts),
     after_message w status s).
Proof.
  intros Htitle Hcat.
  unfold get_base_data_by_status, get_message_and_status, bind.
  rewrite get_message_by_status_ok. cbn [ret].
  rewrite (technique_title_ok _ _ title) by assumption.
  rewrite (mitigation_of_status _ _ _ texts) by assumption.
  rewrite entry_two_steps. reflexivity.
Qed.

(** The entry and the state [get_tech_base_data] returns. *)
Lemma get_tech_base_data_entry (w : World) cls status title texts s s1 :
  technique_status w cls s = (Ok status, s1) →
  technique_titles w !! tech_id cls = Some title →
  (status = USED → mitigation_catalog w !! tech_id cls = Some texts) →
  get_tech_base_data w cls s =
    (Ok (report_entry status title (message_for w cls status s1) texts),
     after_message w status s1).
Proof.
  intros Hstatus Htitle Hcat. unfold get_tech_base_data, bind.
  rewrite Hstatus. rewrite (technique_title_ok _ _ title) by assumption.
  rewrite get_message_by_status_ok.
  rewrite (mitigation_of_status _ _ _ texts) by assumption.
  rewrite entry_one_step. reflexivity.
Qed.


(** Whatever it returns or raises, [get_base_data_by_status] leaves the
    state that the composition of the message left. *)
Lemma get_base_data_by_status_state (w : World) cls status s :
  (get_base_data_by_status w cls status s).2 = after_message w status s.
Proof.
  unfold get_base_data_by_status, get_message_and_status, bind.
  rewrite get_message_by_status_ok. cbn [ret].
  unfold technique_title, get_mitigation_by_status.
  destruct (technique_titles w !! tech_id cls); [|reflexivity].
  destruct (Z.eqb status USED); [|reflexivity].
  destruct (mitigation_catalog w !! tech_id cls); reflexivity.
Qed.

Lemma technique_status_cache (w : World) cls s :
  config_schema_per_attack_technique (technique_status w cls s).2 =
  config_schema_per_attack_technique s.
Proof.
  destruct (technique_values w !! tech_id cls) as [[|]|] eqn:Hen.
  - rewrite technique_status_enabled by assumption.
    destruct (has_eventb w cls USED); [reflexivity|].
    destruct (has_eventb w cls SCANNED); reflexivity.
  - now rewrite technique_status_flag_false.
  - now rewrite technique_status_no_key.
Qed.

(** X8. The two builders agree: [get_tech_base_data] returns or raises
    what [get_base_data_by_status] does when it is given the status that
    [technique_status] resolved, in the state that resolution left; when the
    title exists the final states agree as well. *)
Theorem builders_agree (w : World) cls status s s1 :
  technique_status w cls s = (Ok status, s1) →
  (get_tech_base_data w cls s).1 = (get_base_data_by_status w cls status s1).1 ∧
  (is_Some (technique_titles w !! tech_id cls) →
   get_tech_base_data w cls s = get_base_data_by_status w cls status s1).
Proof.
  intros Hstatus.
  unfold get_tech_base_data, get_base_data_by_status, get_message_and_status, bind.
  rewrite Hstatus, get_message_by_status_ok. cbn [ret].
  unfold technique_title.
  destruct (technique_titles w !! tech_id cls) as [title|].
  - cbn [ret]. rewrite get_message_by_status_ok.
    rewrite entry_two_steps, entry_one_step.
    unfold get_mitigation_by_status.
    destruct (Z.eqb status USED); [|split; reflexivity].
    destruct (mitigation_catalog w !! tech_id cls); split; reflexivity.
  - split; [reflexivity|]. intros [? ?]. discriminate.
Qed.

(** X9. For a technique that the configuration disables, with the used and
    disabled values different, [get_tech_base_data] returns the entry of
    exactly three keys (the disabled status, the title, the disabled
    message), sends no query and leaves the class attribute alone. *)
Theorem tech_base_data_disabled_entry (w : World) cls title s :
  technique_values w !! tech_id cls = Some false →
  technique_titles w !! tech_id cls = Some title →
  USED ≠ DISABLED →
  get_tech_base_data w cls s =
    (Ok {[ "status" := VInt DISABLED; "title" := VStr title;
           "message" := VStr disabled_msg ]}, s).
Proof.
  intros Hcfg Htitle Hne.
  rewrite (get_tech_base_data_entry w cls DISABLED title [] s s);
    [|now apply technique_status_flag_false | assumption | congruence].
  rewrite after_message_disabled.
  unfold report_entry, mitigation_part, message_for.
  rewrite Z.eqb_refl. apply not_eq_sym, Z.eqb_neq in Hne. rewrite Hne.
  now rewrite (left_id_L ∅ (∪)).
Qed.


(** X11. Once the class attribute holds a non-empty index, neither builder
    changes it, in any world, whether the call returns or raises. *)
Theorem builders_keep_cache (w : World) cls status s :
  truthy (config_schema_per_attack_technique s) = true →
  config_schema_per_attack_technique (get_tech_base_data w cls s).2 =
    config_schema_per_attack_technique s ∧
  config_schema_per_attack_technique (get_base_data_by_status w cls status s).2 =
    config_schema_per_attack_technique s.
Proof.
  intros Ht. split.
  - pose proof (technique_status_cache w cls s) as Hcache.
    unfold get_tech_base_data, bind.
    destruct (technique_status w cls s) as [[st|e] s1]; [|exact Hcache].
    cbn [snd] in Hcache.
    unfold technique_title.
    destruct (technique_titles w !! tech_id cls); [|exact Hcache].
    cbn [ret]. rewrite get_message_by_status_ok.
    assert (config_schema_per_attack_technique (after_message w st s1) =
            config_schema_per_attack_technique s) as Hafter.
    { rewrite after_message_cache; [assumption | now rewrite Hcache]. }
    unfold get_mitigation_by_status.
    destruct (Z.eqb st USED); [|exact Hafter].
    destruct (mitigation_catalog w !! tech_id cls); exact Hafter.
  - rewrite get_base_data_by_status_state. now apply after_message_cache.
Qed.

(** X12. For a technique whose identifier is not a key of the technique
    values, [get_tech_base_data] raises the key error before anything else
    is looked up, and [is_status_disabled] raises it without running the
    wrapped function; the state is left as it was. *)
Theorem key_error_propagates (w : World) cls s :
  technique_values w !! tech_id cls = None →
  get_tech_base_data w cls s = (Raise (KeyError (tech_id cls)), s) ∧
  ∀ D (f : M (Z * list D)),
    is_status_disabled w cls f s = (Raise (KeyError (tech_id cls)), s).
Proof.
  intros Hcfg. split.
  - unfold get_tech_base_data, bind. now rewrite technique_status_no_key.
  - intros D f. unfold is_status_disabled, _is_enabled_in_config, bind.
    now rewrite Hcfg.
Qed.

(** X13. [get_base_data_by_status] reads neither the technique values nor
    the telemetry: it sends no query, and two worlds with the same titles,
    mitigations and schema give the same result and state. *)
Theorem base_data_by_status_reads (w w' : World) cls status s :
  technique_titles w = technique_titles w' →
  mitigation_catalog w = mitigation_catalog w' →
  SCHEMA w = SCHEMA w' →
  queries (get_base_data_by_status w cls status s).2 = queries s ∧
  get_base_data_by_status w cls status s =
    get_base_data_by_status w' cls status s.
Proof.
  intros Htitles Hcat Hschema. split.
  - now rewrite get_base_data_by_status_state.
  - unfold get_base_data_by_status, get_message_and_status, bind.
    rewrite !get_message_by_status_ok.
    unfold message_for, index_in_use, cache_after, technique_title,
      get_mitigation_by_status.
    now rewrite Htitles, Hcat, Hschema.
Qed.

(** X14. Feeding the status that [is_status_disabled] returns to
    [get_base_data_by_status] gives, for a technique that the configuration
    disables, the disabled entry of three keys whatever the wrapped function
    would have returned; the wrapped function is not run and the state is
    left as it was. *)
Theorem wrapped_status_disabled_entry (w : World) cls title s
    {D} (f : M (Z * list D)) :
  technique_values w !! tech_id cls = Some false →
  technique_titles w !! tech_id cls = Some title →
  USED ≠ DISABLED →
  (do r <- is_status_disabled w cls f ;; get_base_data_by_status w cls r.1) s =
    (Ok {[ "status" := VInt DISABLED; "title" := VStr title;
           "message" := VStr disabled_msg ]}, s).
Proof.
  intros Hcfg Htitle Hne. unfold bind at 1.
  rewrite is_status_disabled_not_enabled by assumption. cbn [fst].
  rewrite (get_base_data_by_status_entry w cls DISABLED title []);
    [|assumption | congruence].
  rewrite after_message_disabled.
  unfold report_entry, mitigation_part, message_for.
  rewrite Z.eqb_refl. apply not_eq_sym, Z.eqb_neq in Hne. rewrite Hne.
  now rewrite (left_id_L ∅ (∪)).
Qed.

End BuilderMore.


(** ** From the configuration and the log to the entry *)

Section EndToEnd.

Context `{ScanStatus} `{ConfigSchemaPerAttackTechnique}.

Lemma index_in_use_sent (w : World) s qs :
  index_in_use w (sent s qs) = index_in_use w s.
Proof. reflexivity. Qed.

Lemma after_message_unscanned (w : World) s :
  UNSCANNED ≠ DISABLED →
  after_message w UNSCANNED s =
    {| config_schema_per_attack_technique := Some (index_in_use w s);
       queries := queries s |}.
Proof.
  intros Hne. unfold after_message. f_equal.
  apply cache_after_unscanned; [now apply Z.eqb_neq | apply Z.eqb_refl].
Qed.

(** X15. An enabled technique with no used-level and no scanned-level
    attack telemetry, the unscanned value being different from the disabled
    and used ones: [get_tech_base_data] returns the entry of three keys with
    the unscanned status and the unscanned message with its reasons, after
    the two queries, and leaves in the class attribute the index the message
    was composed from. *)
Theorem tech_base_data_unscanned_entry (w : World) cls title s :
  technique_values w !! tech_id cls = Some true →
  ¬ has_event w cls USED →
  ¬ has_event w cls SCANNED →
  technique_titles w !! tech_id cls = Some title →
  UNSCANNED ≠ DISABLED →
  UNSCANNED ≠ USED →
  get_tech_base_data w cls s =
    (Ok {[ "status" := VInt UNSCANNED; "title" := VStr title;
           "message" :=
             VStr (with_reasons (PyStr.strip ".") (unscanned_msg cls)
                     (reason_lines cls (index_in_use w s))) ]},
     {| config_schema_per_attack_technique := Some (index_in_use w s);
        queries :=
          (queries s ++ [status_query cls USED; status_query cls SCANNED])%list |}).
Proof.
  intros Hcfg Hused Hscanned Htitle Hd Hu.
  assert (technique_status w cls s =
          (Ok UNSCANNED,
           sent s [status_query cls USED; status_query cls SCANNED])) as Hstatus.
  { rewrite technique_status_enabled by assumption.
    apply has_eventb_false in Hused, Hscanned. now rewrite Hused, Hscanned. }
  rewrite (get_tech_base_data_entry w cls UNSCANNED title [] s _ Hstatus Htitle)
    by congruence.
  rewrite after_message_unscanned by assumption.
  rewrite index_in_use_sent.
  unfold report_entry, mitigation_part, message_for.
  apply Z.eqb_neq in Hd, Hu. rewrite Hd, Hu, Z.eqb_refl.
  rewrite index_in_use_sent. now rewrite (left_id_L ∅ (∪)).
Qed.

(** X16. An enabled technique with a used-level attack telemetry and
    mitigations in the catalog, the used value being different from the
    other three: [get_tech_base_data] returns the entry of four keys with the
    used status, the used message and the mitigations of the catalog, after
    the used-level query alone, and does not touch the class attribute. *)
Theorem tech_base_data_used_entry (w : World) cls title texts s :
  technique_values w !! tech_id cls = Some true →
  has_event w cls USED →
  technique_titles w !! tech_id cls = Some title →
  mitigation_catalog w !! tech_id cls = Some texts →
  USED ≠ DISABLED → USED ≠ UNSCANNED → USED ≠ SCANNED →
  get_tech_base_data w cls s =
    (Ok {[ "mitigations" := VMitigations texts; "status" := VInt USED;
           "title" := VStr title; "message" := VStr (used_msg cls) ]},
     sent s [status_query cls USED]).
Proof.
  intros Hcfg Hused Htitle Hcat Hd Hu Hs.
  assert (technique_status w cls s = (Ok USED, sent s [status_query cls USED]))
    as Hstatus.
  { rewrite technique_status_enabled by assumption.
    apply has_eventb_true in Hused. now rewrite Hused. }
  rewrite (get_tech_base_data_entry w cls USED title texts s _ Hstatus Htitle)
    by (intros _; assumption).
  unfold report_entry, mitigation_part, message_for, after_message, cache_after.
  apply Z.eqb_neq in Hd, Hu, Hs. rewrite Hd, Hu, Hs, Z.eqb_refl.
  cbn [negb andb]. rewrite insert_union_singleton_l. reflexivity.
Qed.

End EndToEnd.

(** ** The class attribute under one schema *)

Section OneSchema.

Context `{ScanStatus} `{ConfigSchemaPerAttackTechnique}.

Lemma index_in_use_consistent (w : World) s :
  cache_consistent w s →
  index_in_use w s = get_config_schema_per_attack_technique (SCHEMA w).
Proof.
  unfold cache_consistent, index_in_use. intros [-> | ->]; [reflexivity|].
  cbn [truthy default from_option id]. now case_bool_decide.
Qed.

Lemma message_for_reset (w : World) cls status s :
  cache_consistent w s →
  message_for w cls status s = message_for w cls status (reset_cache s).
Proof.
  intros Hc. unfold message_for. now rewrite (index_in_use_consistent w s Hc).
Qed.

Lemma cache_after_consistent (w w' : World) status s :
  SCHEMA w' = SCHEMA w →
  cache_consistent w s →
  cache_consistent w' (after_message w status s).
Proof.
  intros Hschema Hc. unfold cache_consistent, after_message, cache_after in *.
  cbn [config_schema_per_attack_technique]. rewrite Hschema.
  destruct (negb _ && _ && _); [now right | assumption].
Qed.

Lemma sent_reset s qs : sent (reset_cache s) qs = reset_cache (sent s qs).
Proof. reflexivity. Qed.

(** [technique_status] does not read the class attribute. *)
Lemma technique_status_reset (w : World) cls s :
  technique_status w cls (reset_cache s) =
    ((technique_status w cls s).1, reset_cache (technique_status w cls s).2).
Proof.
  destruct (technique_values w !! tech_id cls) as [[|]|] eqn:Hen.
  - rewrite !technique_status_enabled by assumption.
    destruct (has_eventb w cls USED); [reflexivity|].
    destruct (has_eventb w cls SCANNED); reflexivity.
  - now rewrite !technique_status_flag_false.
  - now rewrite !technique_status_no_key.
Qed.

(** The result of [get_base_data_by_status] depends on the state through
    the message only. *)
Lemma get_base_data_by_status_result (w : World) cls status s s' :
  message_for w cls status s = message_for w cls status s' →
  (get_base_data_by_status w cls status s).1 =
  (get_base_data_by_status w cls status s').1.
Proof.
  intros Hmsg.
  unfold get_base_data_by_status, get_message_and_status, bind.
  rewrite !get_message_by_status_ok, Hmsg. cbn [ret].
  unfold technique_title, get_mitigation_by_status.
  destruct (technique_titles w !! tech_id cls); [|reflexivity].
  destruct (Z.eqb status USED); [|reflexivity].
  destruct (mitigation_catalog w !! tech_id cls); reflexivity.
Qed.

(** [get_tech_base_data] in terms of the two steps it is made of. *)
Lemma get_tech_base_data_steps (w : World) cls s :
  (get_tech_base_data w cls s).1 =
    match technique_status w cls s with
    | (Ok status, s1) => (get_base_data_by_status w cls status s1).1
    | (Raise e, _) => Raise e
    end ∧
  config_schema_per_attack_technique (get_tech_base_data w cls s).2 =
    match technique_status w cls s with
    | (Ok status, s1) =>
        match technique_titles w !! tech_id cls with
        | Some _ => cache_after w status s1
        | None => config_schema_per_attack_technique s1
        end
    | (Raise e, s1) => config_schema_per_attack_technique s1
    end.
Proof.
  unfold get_tech_base_data, get_base_data_by_status, get_message_and_status, bind.
  destruct (technique_status w cls s) as [[status|e] s1]; [|split; reflexivity].
  rewrite !get_message_by_status_ok. cbn [ret].
  unfold technique_title.
  destruct (technique_titles w !! tech_id cls); [|split; reflexivity].
  cbn [ret]. rewrite get_message_by_status_ok, entry_two_steps, entry_one_step.
  unfold get_mitigation_by_status.
  destruct (Z.eqb status USED); [|split; reflexivity].
  destruct (mitigation_catalog w !! tech_id cls); split; reflexivity.
Qed.

(** X18. With one schema for the life of the process the class attribute
    is never stale.  If it is unset or holds the index of the schema, then
    after either builder it still is, for every world with that schema, and
    the builder returns or raises what it would have with the attribute
    reset before the call. *)
Theorem cache_never_stale (w w' : World) cls status s :
  SCHEMA w' = SCHEMA w →
  cache_consistent w s →
  (cache_consistent w' (get_tech_base_data w cls s).2 ∧
   (get_tech_base_data w cls s).1 =
   (get_tech_base_data w cls (reset_cache s)).1) ∧
  (cache_consistent w' (get_base_data_by_status w cls status s).2 ∧
   (get_base_data_by_status w cls status s).1 =
   (get_base_data_by_status w cls status (reset_cache s)).1).
Proof.
  intros Hschema Hc.
  assert (cache_consistent w' s) as Hc'.
  { unfold cache_consistent in *. now rewrite Hschema. }
  split; split.
  - destruct (get_tech_base_data_steps w cls s) as [_ Hcache].
    pose proof (technique_status_cache w cls s) as Hkeep.
    unfold cache_consistent at 1. rewrite Hcache.
    destruct (technique_status w cls s) as [[st|e] s1]; cbn [snd] in Hkeep.
    + destruct (technique_titles w !! tech_id cls).
      * apply (cache_after_consistent w w' st s1 Hschema).
        unfold cache_consistent. now rewrite Hkeep.
      * rewrite Hkeep. exact Hc'.
    + rewrite Hkeep. exact Hc'.
  - destruct (get_tech_base_data_steps w cls s) as [-> _].
    destruct (get_tech_base_data_steps w cls (reset_cache s)) as [-> _].
    rewrite technique_status_reset.
    pose proof (technique_status_cache w cls s) as Hkeep.
    destruct (technique_status w cls s) as [[st|e] s1]; cbn [fst snd] in *;
      [|reflexivity].
    apply get_base_data_by_status_result, message_for_reset.
    unfold cache_consistent. now rewrite Hkeep.
  - rewrite get_base_data_by_status_state.
    now apply (cache_after_consistent w w').
  - now apply get_base_data_by_status_result, message_for_reset.
Qed.

End OneSchema.

(** ** Further worked instances *)

Section ExamplesMore.

Local Existing Instance numbered_ScanStatus.
Local Existing Instance reversed_schema.

(** [T1110] with a scanned-level telemetry only. *)
Lemma technique_status_scanned_witness :
  technique_status (sample_world ∅ [scanned_T1110; used_T1154]) T1110 init_state =
    (Ok SCANNED,
     sent init_state [status_query T1110 USED; status_query T1110 SCANNED]).
Proof.
  apply (technique_status_scanned
           (sample_world ∅ [scanned_T1110; used_T1154]) T1110 init_state).
  - vm_compute; reflexivity.
  - apply has_eventb_false. vm_compute; reflexivity.
  - apply has_eventb_true. vm_compute; reflexivity.
Defined.

(** [T1110] with a used-level telemetry of another category and one of
    another technique. *)
Lemma technique_status_unscanned_witness :
  technique_status (sample_world ∅ [scan_T1110; used_T1154]) T1110 init_state =
    (Ok UNSCANNED,
     sent init_state [status_query T1110 USED; status_query T1110 SCANNED]).
Proof.
  apply (technique_status_unscanned
           (sample_world ∅ [scan_T1110; used_T1154]) T1110 init_state).
  - vm_compute; reflexivity.
  - apply has_eventb_false. vm_compute; reflexivity.
  - apply has_eventb_false. vm_compute; reflexivity.
Defined.

(** The same two documents, reordered and repeated. *)
Lemma technique_status_same_documents_witness :
  technique_status (sample_world ∅ [scanned_T1110; used_T1110]) T1110 init_state =
  technique_status
    (sample_world ∅ [used_T1110; scanned_T1110; used_T1110]) T1110 init_state.
Proof.
  apply (technique_status_same_documents
           (sample_world ∅ [scanned_T1110; used_T1110])
           (sample_world ∅ [used_T1110; scanned_T1110; used_T1110])
           T1110 init_state).
  - reflexivity.
  - intros d. cbn. tauto.
Defined.

(** A scanned-level telemetry is added to a log with a used-level one. *)
Lemma technique_status_monotone_witness :
  (technique_status (sample_world ∅ [used_T1110; scanned_T1110]) T1110
     init_state).1 = Ok USED.
Proof.
  apply (technique_status_monotone
           (sample_world ∅ [used_T1110])
           (sample_world ∅ [used_T1110; scanned_T1110]) T1110 init_state).
  - reflexivity.
  - intros d. cbn. tauto.
  - intros Heq. vm_compute in Heq. discriminate Heq.
  - vm_compute. reflexivity.
Defined.

(** Periods at both ends and inside the base message. *)
Lemma unscanned_msg_periods_removed_witness :
  ∃ head n m,
    "..No trap. None.." = periods n +:+ head +:+ periods m ∧
    PyStr.startswith "." head = false ∧
    last_is "." head = false ∧
    _get_unscanned_msg_with_reasons T1154 "..No trap. None.." ∅ init_state =
      (Ok (head +:+ " due to one of the following reasons:" +:+ newline
           +:+ PyStr.join newline (reason_lines T1154 ∅)), init_state).
Proof.
  apply (unscanned_msg_periods_removed T1154 "..No trap. None.." ∅ init_state).
  vm_compute. discriminate.
Defined.

Example unscanned_msg_periods_inside :
  (_get_unscanned_msg_with_reasons T1154 "..No trap. None.." ∅ init_state).1 =
    Ok ("No trap. None due to one of the following reasons:" +:+ newline
        +:+ "- Monkey did not run on any Linux systems.").
Proof. vm_compute. reflexivity. Qed.

(** Two config types, the first with two fields. *)
Lemma get_relevant_config_values_stored_order_witness :
  _get_relevant_config_values T1154 exploit_index init_state =
    (Ok (config_type_lines
           [("Exploits", ["exploiter_classes"; "depth"]);
            ("Network", ["tcp_scanner"])]), init_state).
Proof.
  apply (get_relevant_config_values_stored_order T1154 exploit_index
           [("Exploits", ["exploiter_classes"; "depth"]);
            ("Network", ["tcp_scanner"])] init_state).
  - repeat constructor; cbn; intuition discriminate.
  - vm_compute. reflexivity.
Defined.

Example config_type_lines_two :
  config_type_lines
    [("Exploits", ["exploiter_classes"; "depth"]); ("Network", ["tcp_scanner"])]
  = "- Exploits " +:+ em_dash +:+ " exploiter_classes, depth<br/>"
    +:+ "- Network " +:+ em_dash +:+ " tcp_scanner<br/>".
Proof. vm_compute. reflexivity. Qed.

(** [T1110] with a used-level telemetry, resolved and then built. *)
Lemma builders_agree_witness :
  (get_tech_base_data (sample_world ∅ [used_T1110]) T1110 init_state).1 =
    (get_base_data_by_status (sample_world ∅ [used_T1110]) T1110 USED
       (sent init_state [status_query T1110 USED])).1 ∧
  (is_Some (technique_titles (sample_world ∅ [used_T1110]) !! tech_id T1110) →
   get_tech_base_data (sample_world ∅ [used_T1110]) T1110 init_state =
     get_base_data_by_status (sample_world ∅ [used_T1110]) T1110 USED
       (sent init_state [status_query T1110 USED])).
Proof.
  apply (builders_agree (sample_world ∅ [used_T1110]) T1110 USED init_state
           (sent init_state [status_query T1110 USED])).
  vm_compute. reflexivity.
Defined.

(** The disabled [T1154], with a used-level telemetry of its own. *)
Lemma tech_base_data_disabled_entry_witness :
  get_tech_base_data (sample_world brute_force_index [used_T1154]) T1154
    init_state =
    (Ok {[ "status" := VInt DISABLED; "title" := VStr "T1154 Trap";
           "message" := VStr disabled_msg ]}, init_state).
Proof.
  apply (tech_base_data_disabled_entry
           (sample_world brute_force_index [used_T1154]) T1154 "T1154 Trap"
           init_state).
  - vm_compute; reflexivity.
  - vm_compute; reflexivity.
  - intros Heq. vm_compute in Heq. discriminate Heq.
Defined.


(** The class attribute holds [brute_force_index] while the schema yields
    [exploit_index]. *)
Lemma builders_keep_cache_witness :
  config_schema_per_attack_technique
    (get_tech_base_data (sample_world exploit_index []) T1110 cached_state).2 =
    config_schema_per_attack_technique cached_state ∧
  config_schema_per_attack_technique
    (get_base_data_by_status (sample_world exploit_index []) T1110 UNSCANNED
       cached_state).2 =
    config_schema_per_attack_technique cached_state.
Proof.
  apply (builders_keep_cache (sample_world exploit_index []) T1110 UNSCANNED
           cached_state).
  vm_compute. reflexivity.
Defined.

(** [T1053] is not a key of the technique values, nor of the titles. *)
Lemma key_error_propagates_witness :
  get_tech_base_data (sample_world ∅ [used_T1110]) T1053 init_state =
    (Raise (KeyError (tech_id T1053)), init_state) ∧
  ∀ D (f : M (Z * list D)),
    is_status_disabled (sample_world ∅ [used_T1110]) T1053 f init_state =
      (Raise (KeyError (tech_id T1053)), init_state).
Proof.
  apply (key_error_propagates (sample_world ∅ [used_T1110]) T1053 init_state).
  vm_compute. reflexivity.
Defined.

(** Two worlds that differ in their telemetry. *)
Lemma base_data_by_status_reads_witness :
  queries
    (get_base_data_by_status (sample_world exploit_index []) T1110 UNSCANNED
       init_state).2 = queries init_state ∧
  get_base_data_by_status (sample_world exploit_index []) T1110 UNSCANNED
    init_state =
  get_base_data_by_status (sample_world exploit_index [used_T1110]) T1110
    UNSCANNED init_state.
Proof.
  apply (base_data_by_status_reads (sample_world exploit_index [])
           (sample_world exploit_index [used_T1110]) T1110 UNSCANNED init_state);
    reflexivity.
Defined.

(** The wrapped function would have reported the used status. *)
Lemma wrapped_status_disabled_entry_witness :
  (do r <- is_status_disabled (sample_world ∅ []) T1154
             (ret (USED, ["10.0.0.1"])) ;;
   get_base_data_by_status (sample_world ∅ []) T1154 r.1) init_state =
    (Ok {[ "status" := VInt DISABLED; "title" := VStr "T1154 Trap";
           "message" := VStr disabled_msg ]}, init_state).
Proof.
  apply (wrapped_status_disabled_entry (sample_world ∅ []) T1154 "T1154 Trap"
           init_state (ret (USED, ["10.0.0.1"]))).
  - vm_compute; reflexivity.
  - vm_compute; reflexivity.
  - intros Heq. vm_compute in Heq. discriminate Heq.
Defined.

(** The enabled [T1110] with no telemetry of its own, first request. *)
Lemma tech_base_data_unscanned_entry_witness :
  get_tech_base_data (sample_world brute_force_index [used_T1154]) T1110
    init_state =
    (Ok {[ "status" := VInt UNSCANNED; "title" := VStr "T1110 Brute force";
           "message" :=
             VStr (with_reasons (PyStr.strip ".") (unscanned_msg T1110)
                     (reason_lines T1110
                        (index_in_use
                           (sample_world brute_force_index [used_T1154])
                           init_state))) ]},
     {| config_schema_per_attack_technique :=
          Some (index_in_use (sample_world brute_force_index [used_T1154])
                  init_state);
        queries :=
          (queries init_state
           ++ [status_query T1110 USED; status_query T1110 SCANNED])%list |}).
Proof.
  apply (tech_base_data_unscanned_entry
           (sample_world brute_force_index [used_T1154]) T1110
           "T1110 Brute force" init_state).
  - vm_compute; reflexivity.
  - apply has_eventb_false. vm_compute; reflexivity.
  - apply has_eventb_false. vm_compute; reflexivity.
  - vm_compute; reflexivity.
  - intros Heq. vm_compute in Heq. discriminate Heq.
  - intros Heq. vm_compute in Heq. discriminate Heq.
Defined.

(** The enabled [T1110] with a used-level telemetry. *)
Lemma tech_base_data_used_entry_witness :
  get_tech_base_data (sample_world brute_force_index [scanned_T1110; used_T1110])
    T1110 init_state =
    (Ok {[ "mitigations" := VMitigations ["Account Use Policies"];
           "status" := VInt USED; "title" := VStr "T1110 Brute force";
           "message" := VStr (used_msg T1110) ]},
     sent init_state [status_query T1110 USED]).
Proof.
  apply (tech_base_data_used_entry
           (sample_world brute_force_index [scanned_T1110; used_T1110]) T1110
           "T1110 Brute force" ["Account Use Policies"] init_state).
  - vm_compute; reflexivity.
  - apply has_eventb_true. vm_compute; reflexivity.
  - vm_compute; reflexivity.
  - vm_compute; reflexivity.
  - intros Heq. vm_compute in Heq. discriminate Heq.
  - intros Heq. vm_compute in Heq. discriminate Heq.
  - intros Heq. vm_compute in Heq. discriminate Heq.
Defined.

(** The attribute holds the index of the schema; a used-level telemetry
    has arrived since. *)
Lemma cache_never_stale_witness :
  (cache_consistent (sample_world brute_force_index [])
     (get_tech_base_data (sample_world brute_force_index [used_T1110]) T1110
        cached_state).2 ∧
   (get_tech_base_data (sample_world brute_force_index [used_T1110]) T1110
      cached_state).1 =
   (get_tech_base_data (sample_world brute_force_index [used_T1110]) T1110
      (reset_cache cached_state)).1) ∧
  (cache_consistent (sample_world brute_force_index [])
     (get_base_data_by_status (sample_world brute_force_index [used_T1110])
        T1110 UNSCANNED cached_state).2 ∧
   (get_base_data_by_status (sample_world brute_force_index [used_T1110])
      T1110 UNSCANNED cached_state).1 =
   (get_base_data_by_status (sample_world brute_force_index [used_T1110])
      T1110 UNSCANNED (reset_cache cached_state)).1).
Proof.
  apply (cache_never_stale (sample_world brute_force_index [used_T1110])
           (sample_world brute_force_index []) T1110 UNSCANNED cached_state).
  - reflexivity.
  - right. reflexivity.
Defined.

End ExamplesMore.
